(** * pcdsdevices: [gon.Kappa] and the derived signals of [signal]

    A shallow embedding of the parts of [pcdsdevices/gon.py] and
    [pcdsdevices/signal.py] that the specification speaks about:

    - [Kappa.k_to_e], [Kappa.e_to_k], [Kappa.mv_e_eta], [Kappa.mv_e_chi],
      [Kappa.mv_e_phi] and [Kappa.check_motor_step];
    - [AggregateSignal.subscribe], [AggregateSignal.get] and
      [AggregateSignal._run_sub_value];
    - [AvgSignal.averages] (setter) and [AvgSignal._update_avg];
    - [UnitConversionDerivedSignal.forward] and [inverse].

    Python exceptions are values of [exn]; a method of a device is a
    function from the device (its state and the record of what it did to
    the hardware) to an outcome and the device afterwards. *)

From Stdlib Require Import Reals Lra Lia ZArith QArith Qcanon Floats.
From Stdlib Require Uint63.
From stdpp Require Import base option list gmap strings.

Set Default Proof Using "Type".

(** ** Python exceptions and outcomes *)

Inductive exn : Type :=
| AttributeError (name : string)
| UnboundLocalError (name : string)
| TypeError (keyword : string)
| IndexError
| ValueError
| EOFError
| NotImplementedError
| KeyboardInterrupt.

Inductive outcome (A : Type) : Type :=
| Return (a : A)
| Raise (e : exn).
Arguments Return {A} a.
Arguments Raise {A} e.

Definition returns {A} (o : outcome A) : bool :=
  match o with Return _ => true | Raise _ => false end.

#[export] Instance outcome_ret : MRet outcome := @Return.
#[export] Instance outcome_bind : MBind outcome := fun A B k o =>
  match o with Return a => k a | Raise e => Raise e end.

(** A method: from the object it runs on to an outcome and the object
    afterwards.  What a method changed before it raised stays changed. *)
Definition state_exn (S A : Type) : Type := S -> outcome A * S.

#[export] Instance state_exn_ret {S} : MRet (state_exn S) :=
  fun A a self => (Return a, self).
#[export] Instance state_exn_bind {S} : MBind (state_exn S) :=
  fun A B k m self =>
    match m self with
    | (Return a, self') => k a self'
    | (Raise e, self') => (Raise e, self')
    end.

Definition raise {S A} (e : exn) : state_exn S A := fun self => (Raise e, self).
Definition attr {S A} (f : S -> A) : state_exn S A :=
  fun self => (Return (f self), self).
Definition modify {S} (f : S -> S) : state_exn S unit :=
  fun self => (Return tt, f self).

(** ** numpy's float64 scalars, for [Kappa]

    A float64 is a finite number, an infinity or NaN.  The finite numbers are
    taken as real numbers: rounding, overflow and the sign of zero are not
    modelled (a zero divisor counts as [+0.0]).  What numpy does outside the
    domain of an operation is modelled as numpy does it: no ufunc raises,
    [np.arcsin] outside [[-1, 1]] is NaN, a division by zero is an infinity
    or NaN.  The properties of [Kappa] below are about which calls return
    and which raise; none rests on the value of a rounded result. *)

Module NumPy.
Local Open Scope R_scope.

Inductive npfloat : Type :=
| Fin (r : R)
| PInf
| NInf
| NaN.

Definition Rltb (a b : R) : bool := if Rlt_dec a b then true else false.
Definition Rleb (a b : R) : bool := if Rle_dec a b then true else false.
Definition Reqb (a b : R) : bool := if Req_dec_T a b then true else false.

Definition is_nan (x : npfloat) : bool :=
  match x with NaN => true | _ => false end.
Definition is_zero (x : npfloat) : bool :=
  match x with Fin r => Reqb r 0 | _ => false end.
Definition is_neg (x : npfloat) : bool :=
  match x with Fin r => Rltb r 0 | NInf => true | _ => false end.
Definition signed_inf (neg : bool) : npfloat := if neg then NInf else PInf.

Definition fneg (x : npfloat) : npfloat :=
  match x with
  | Fin r => Fin (- r)
  | PInf => NInf
  | NInf => PInf
  | NaN => NaN
  end.

Definition fabs (x : npfloat) : npfloat :=
  match x with
  | Fin r => Fin (Rabs r)
  | PInf | NInf => PInf
  | NaN => NaN
  end.

Definition fsub (x y : npfloat) : npfloat :=
  match x, y with
  | NaN, _ | _, NaN => NaN
  | Fin a, Fin b => Fin (a - b)
  | Fin _, PInf => NInf
  | Fin _, NInf => PInf
  | PInf, PInf | NInf, NInf => NaN
  | PInf, _ => PInf
  | NInf, _ => NInf
  end.

Definition fmul (x y : npfloat) : npfloat :=
  match x, y with
  | NaN, _ | _, NaN => NaN
  | Fin a, Fin b => Fin (a * b)
  | _, _ => if is_zero x || is_zero y then NaN
            else signed_inf (xorb (is_neg x) (is_neg y))
  end.

Definition fdiv (x y : npfloat) : npfloat :=
  match x, y with
  | NaN, _ | _, NaN => NaN
  | Fin a, Fin b =>
      if Reqb b 0
      then (if Reqb a 0 then NaN else signed_inf (Rltb a 0))
      else Fin (a / b)
  | Fin _, _ => Fin 0
  | _, Fin b => signed_inf (xorb (is_neg x) (Rltb b 0))
  | _, _ => NaN
  end.

(** [x > y]; every comparison with NaN is false. *)
Definition fgt (x y : npfloat) : bool :=
  match x, y with
  | NaN, _ | _, NaN => false
  | Fin a, Fin b => Rltb b a
  | PInf, PInf | NInf, _ | Fin _, PInf => false
  | PInf, _ | Fin _, NInf => true
  end.

Definition np_pi : npfloat := Fin PI.

Definition np_sin (x : npfloat) : npfloat :=
  match x with Fin r => Fin (sin r) | _ => NaN end.
Definition np_cos (x : npfloat) : npfloat :=
  match x with Fin r => Fin (cos r) | _ => NaN end.
Definition np_tan (x : npfloat) : npfloat :=
  match x with Fin r => Fin (tan r) | _ => NaN end.

Definition np_arcsin (x : npfloat) : npfloat :=
  match x with
  | Fin r => if Rleb (Rabs r) 1 then Fin (asin r) else NaN
  | _ => NaN
  end.

Definition np_arctan (x : npfloat) : npfloat :=
  match x with
  | Fin r => Fin (atan r)
  | PInf => Fin (PI / 2)
  | NInf => Fin (- (PI / 2))
  | NaN => NaN
  end.

Declare Scope npfloat_scope.
Delimit Scope npfloat_scope with np.
Bind Scope npfloat_scope with npfloat.
Infix "*" := fmul : npfloat_scope.
Infix "/" := fdiv : npfloat_scope.
Infix "-" := fsub : npfloat_scope.
Notation "- x" := (fneg x) : npfloat_scope.

(** A Python number literal of the source. *)
Definition lit (r : R) : npfloat := Fin r.

End NumPy.

(** ** [gon.Kappa] *)

Module Gon.
Import NumPy.
Local Open Scope string_scope.

(** A Python argument: [None] or a number. *)
Inductive pyval : Type :=
| PyNone
| PyNum (x : npfloat).

(** [not v] *)
Definition py_not (v : pyval) : bool :=
  match v with PyNone => true | PyNum x => is_zero x end.

(** [v != 0] *)
Definition py_ne_0 (v : pyval) : bool :=
  match v with PyNone => true | PyNum x => negb (is_zero x) end.

(** [v == 0] *)
Definition py_eq_0 (v : pyval) : bool := negb (py_ne_0 v).

(** The three motors the pseudo motors drive: the components [eta],
    [kappa] and [phi]. *)
Inductive axis : Type := Eta | Kap | Phi.

(** What the device did to its motors, in the order it did it. *)
Inductive command : Type :=
| Mv (a : axis) (target : npfloat)
| Stop (a : axis)
| Wait (a : axis).

(** The device: the attributes set by [__init__], what each motor's [wm()]
    reports, the lines the operator will type at [input], whether the
    operator presses ctrl+c during a [wait()], the commands issued to the
    motors, and the keyword arguments each call of [e_to_k] from a move
    was made with (both oldest first). *)
Record Kappa : Type := mkKappa {
  eta_max_step : npfloat;
  kappa_max_step : npfloat;
  phi_max_step : npfloat;
  kappa_ang : npfloat;
  wm : axis -> npfloat;
  stdin : list string;
  ctrl_c : bool;
  issued : list command;
  e_to_k_calls : list (list (string * pyval))
}.

Definition issue (c : command) (self : Kappa) : Kappa :=
  mkKappa (eta_max_step self) (kappa_max_step self) (phi_max_step self)
          (kappa_ang self) (wm self) (stdin self) (ctrl_c self)
          (issued self ++ [c]) (e_to_k_calls self).

Definition record_call (kwargs : list (string * pyval)) (self : Kappa) : Kappa :=
  mkKappa (eta_max_step self) (kappa_max_step self) (phi_max_step self)
          (kappa_ang self) (wm self) (stdin self) (ctrl_c self)
          (issued self) (e_to_k_calls self ++ [kwargs]).

Abbreviation M := (state_exn Kappa).

(** [try: body / except KeyboardInterrupt: handler] *)
Definition try_except_KeyboardInterrupt (body handler : M unit) : M unit :=
  fun self =>
    match body self with
    | (Raise KeyboardInterrupt, self') => handler self'
    | r => r
    end.

(** The names an instance of [Kappa] answers to: the components, the
    attributes [__init__] sets and the methods and properties of the class
    body.  (The bases [BaseInterface], [PseudoPositioner] and [Device] add
    names of their own; none of them is one of the names the methods below
    look up.)  Any other name is an [AttributeError]. *)
Definition Kappa_dir : list string :=
  [ "x"; "y"; "z"; "eta"; "kappa"; "phi"; "e_eta"; "e_chi"; "e_phi";
    "tab_component_names"; "tab_whitelist";
    "_prefix_x"; "_prefix_y"; "_prefix_z";
    "_prefix_eta"; "_prefix_kappa"; "_prefix_phi";
    "eta_max_step"; "kappa_max_step"; "phi_max_step"; "kappa_ang";
    "stop"; "wait"; "eta_position"; "kappa_position"; "phi_position";
    "e_eta_coord"; "e_chi_coord"; "e_phi_coord"; "k_to_e"; "e_to_k";
    "mv_e_eta"; "mv_e_chi"; "mv_e_phi"; "check_motor_step" ].

(** [self.<name>]: the attribute when the instance has one of that name. *)
Definition self_ {A} (name : string) (found : M A) : M A :=
  if bool_decide (name ∈ Kappa_dir) then found else raise (AttributeError name).

(** The motor interface: [wm()], [mv(target)], [stop()], [wait()]. *)
Definition motor_wm (a : axis) : M npfloat := attr (fun self => wm self a).
Definition motor_mv (a : axis) (target : npfloat) : M unit :=
  modify (issue (Mv a target)).
Definition motor_stop (a : axis) : M unit :=
  modify (issue (Stop a)).
Definition motor_wait (a : axis) : M unit :=
  fun self =>
    if ctrl_c self then (Raise KeyboardInterrupt, self)
    else (Return tt, issue (Wait a) self).

(** [input(prompt)] *)
Definition input : M string :=
  fun self =>
    match stdin self with
    | [] => (Raise EOFError, self)
    | line :: rest =>
        (Return line,
         mkKappa (eta_max_step self) (kappa_max_step self) (phi_max_step self)
                 (kappa_ang self) (wm self) rest (ctrl_c self) (issued self)
                 (e_to_k_calls self))
    end.

Definition stop : M unit :=
  self_ "eta" (motor_stop Eta);;
  self_ "kappa" (motor_stop Kap);;
  self_ "phi" (motor_stop Phi).

Definition wait : M unit :=
  self_ "eta" (motor_wait Eta);;
  self_ "kappa" (motor_wait Kap);;
  self_ "phi" (motor_wait Phi).

Definition eta_position : M npfloat := self_ "eta" (motor_wm Eta).
Definition kappa_position : M npfloat := self_ "kap" (motor_wm Kap).
Definition phi_position : M npfloat := self_ "phi" (motor_wm Phi).

(** A local variable that only some branch assigns: reading it unassigned
    is an [UnboundLocalError]. *)
Definition local (name : string) (v : option npfloat) : M npfloat :=
  match v with Some x => mret x | None => raise (UnboundLocalError name) end.

(** The number an argument holds; arithmetic on [None] is a [TypeError]. *)
Definition number (v : pyval) : M npfloat :=
  match v with PyNum x => mret x | PyNone => raise (TypeError "NoneType") end.

Definition triple : Type := npfloat * npfloat * npfloat.

(** The arithmetic of [k_to_e], from [kappa_ang = ...] to its [return]. *)
Definition k_to_e_calc (ang eta kap phi : npfloat) : triple :=
  let kappa_ang := (ang * np_pi / lit 180)%np in
  let delta :=
    np_arctan (np_tan (kap * np_pi / lit 180 / lit 2) * np_cos kappa_ang)%np in
  let e_eta := (- eta * np_pi / lit 180 - delta)%np in
  let e_chi :=
    (lit 2 * np_arcsin (np_sin (kap * np_pi / lit 180 / lit 2)
                        * np_sin kappa_ang))%np in
  let e_phi := (phi * np_pi / lit 180 - delta)%np in
  let e_eta := (e_eta * lit 180 / np_pi)%np in
  let e_chi := (e_chi * lit 180 / np_pi)%np in
  let e_phi := (e_phi * lit 180 / np_pi)%np in
  (e_eta, e_chi, e_phi).

Definition k_to_e (eta kappa phi : pyval) : M triple :=
  eta ← (if py_not eta && py_ne_0 eta
          then self_ "eta_position" eta_position
          else number eta);
  kap ← (if py_not kappa && py_ne_0 kappa
          then k ← self_ "kappa_position" kappa_position; mret (Some k)
          else mret None);
  phi ← (if py_not phi && py_ne_0 phi
          then p ← self_ "phi_position" phi_position; mret (- p)%np
          else number phi);
  ang ← self_ "kappa_ang" (attr kappa_ang);
  kap ← local "kap" kap;
  mret (k_to_e_calc ang eta kap phi).

Definition e_eta_coord : M npfloat :=
  '(e_eta, e_chi, e_phi) ← self_ "k_to_e" (k_to_e PyNone PyNone PyNone);
  mret e_eta.
Definition e_chi_coord : M npfloat :=
  '(e_eta, e_chi, e_phi) ← self_ "k_to_e" (k_to_e PyNone PyNone PyNone);
  mret e_chi.
Definition e_phi_coord : M npfloat :=
  '(e_eta, e_chi, e_phi) ← self_ "k_to_e" (k_to_e PyNone PyNone PyNone);
  mret e_phi.

(** The arithmetic of [e_to_k], from [kappa_ang = ...] to its [return]. *)
Definition e_to_k_calc (ang e_eta e_chi e_phi : npfloat) : triple :=
  let kappa_ang := (ang * np_pi / lit 180)%np in
  let delta :=
    np_arcsin (- np_tan (e_chi * np_pi / lit 180 / lit 2)
               / np_tan kappa_ang)%np in
  let k_eta := (- (e_eta * np_pi / lit 180 - delta))%np in
  let k_kap :=
    (lit 2 * np_arcsin (np_sin (e_chi * np_pi / lit 180 / lit 2)
                        / np_sin kappa_ang))%np in
  let k_phi := (e_phi * np_pi / lit 180 - delta)%np in
  let k_eta := (k_eta * lit 180 / np_pi)%np in
  let k_kap := (k_kap * lit 180 / np_pi)%np in
  let k_phi := (- k_phi * lit 180 / np_pi)%np in
  (k_eta, k_kap, k_phi).

Definition e_to_k (e_eta e_chi e_phi : pyval) : M triple :=
  e_eta ← (if py_not e_eta && py_ne_0 e_eta
            then self_ "e_eta_coord" e_eta_coord
            else number e_eta);
  e_chi ← (if py_not e_chi && py_ne_0 e_chi
            then self_ "e_chi_coord" e_chi_coord
            else number e_chi);
  e_phi ← (if py_not e_phi && py_ne_0 e_phi
            then self_ "e_phi_coord" e_phi_coord
            else number e_phi);
  ang ← self_ "kappa_ang" (attr kappa_ang);
  mret (e_to_k_calc ang e_eta e_chi e_phi).

(** A call [self.e_to_k(<keyword>=<value>, ...)]: a keyword that is not a
    parameter of [e_to_k] is a [TypeError]; a parameter that is not given
    takes its default, [None]. *)
Definition e_to_k_params : list string := ["e_eta"; "e_chi"; "e_phi"].

Definition unexpected_keyword (params : list string)
    (kwargs : list (string * pyval)) : option string :=
  fst <$> List.find (fun kv => negb (bool_decide (fst kv ∈ params))) kwargs.

Definition keyword (name : string) (kwargs : list (string * pyval)) : pyval :=
  match List.find (fun kv => bool_decide (fst kv = name)) kwargs with
  | Some kv => snd kv
  | None => PyNone
  end.

Definition call_e_to_k (kwargs : list (string * pyval)) : M triple :=
  modify (record_call kwargs);;
  match unexpected_keyword e_to_k_params kwargs with
  | Some k => raise (TypeError k)
  | None =>
      e_to_k (keyword "e_eta" kwargs) (keyword "e_chi" kwargs)
             (keyword "e_phi" kwargs)
  end.

(** The table that is logged before the prompt is left out: it reads no
    attribute and changes nothing. *)
Definition check_motor_step (eta kappa phi : npfloat) : M bool :=
  cur ← self_ "eta_position" eta_position;
  let eta_step := fabs (eta - cur)%np in
  cur ← self_ "kappa_postion" kappa_position;
  let kappa_step := fabs (kappa - cur)%np in
  cur ← self_ "phi_position" phi_position;
  let phi_step := fabs (phi - cur)%np in
  max ← self_ "eta_max_step" (attr eta_max_step);
  let is_eta_above_max := fgt eta_step max in
  max ← self_ "kappa_max_step" (attr kappa_max_step);
  let is_kappa_above_max := fgt kappa_step max in
  max ← self_ "phi_max_step" (attr phi_max_step);
  let is_phi_above_max := fgt phi_step max in
  if is_eta_above_max || is_kappa_above_max || is_phi_above_max
  then
    answer ← input;
    if bool_decide (answer = "y") then mret true else mret false
  else mret true.

Definition mv_e_eta (value : pyval) : M unit :=
  try_except_KeyboardInterrupt
    ('(k_eta, k_kap, k_phi) ← self_ "e_to_k" (call_e_to_k [("eta", value)]);
     move_on ← self_ "check_motor_step" (check_motor_step k_eta k_kap k_phi);
     if (move_on : bool)
     then
       self_ "eta" (motor_mv Eta k_eta);;
       self_ "kappa" (motor_mv Kap k_kap);;
       self_ "phi" (motor_mv Phi k_phi);;
       self_ "wait" wait
     else mret tt)
    (self_ "stop" stop).

Definition mv_e_chi (value : pyval) : M unit :=
  try_except_KeyboardInterrupt
    (let value := if py_eq_0 value then PyNum (lit (10 / 10 ^ 9)) else value in
     '(k_eta, k_kap, k_phi) ← self_ "e_to_k" (call_e_to_k [("chi", value)]);
     move_on ← self_ "checkMotorStep" (check_motor_step k_eta k_kap k_phi);
     if (move_on : bool)
     then
       self_ "eta" (motor_mv Eta k_eta);;
       self_ "kappa" (motor_mv Kap k_kap);;
       self_ "phi" (motor_mv Phi k_phi);;
       self_ "wait" wait
     else mret tt)
    (self_ "stop" stop).

Definition mv_e_phi (value : pyval) : M unit :=
  try_except_KeyboardInterrupt
    ('(k_eta, k_kap, k_phi) ← self_ "E2K" (call_e_to_k [("phi", value)]);
     move_on ← self_ "check_motor_step" (check_motor_step k_eta k_kap k_phi);
     if (move_on : bool)
     then
       self_ "eta" (motor_mv Eta k_eta);;
       self_ "kappa" (motor_mv Kap k_kap);;
       self_ "phi" (motor_mv Phi k_phi)
     else mret tt)
    (self_ "stop" stop).

(** [__init__] with its defaults: a step of at most 2 on every axis. *)
Definition init (kappa_ang : npfloat) (wm : axis -> npfloat)
    (stdin : list string) : Kappa :=
  mkKappa (lit 2) (lit 2) (lit 2) kappa_ang wm stdin false [] [].

(** The composition the round trip speaks about. *)
Definition round_trip (eta kappa phi : npfloat) : M triple :=
  '(e_eta, e_chi, e_phi) ← k_to_e (PyNum eta) (PyNum kappa) (PyNum phi);
  e_to_k (PyNum e_eta) (PyNum e_chi) (PyNum e_phi).

End Gon.

(** ** [signal.AggregateSignal] *)

Module Aggregate.
Local Open Scope string_scope.

(** A sub signal and an observer callback are known by a number. *)
Abbreviation signal := nat.
Abbreviation callback := nat.

Definition SUB_VALUE : string := "value".

Section AggregateSignal.

(** The values the signals carry, with Python's [!=] on them. *)
Context {V : Type}.
Variable py_ne : V -> V -> bool.

(** The calculation a subclass supplies, from the cache. *)
Variable _calc_readback : gmap signal V -> outcome V.

(** What the signal did to its sub signals and to its observers. *)
Inductive event : Type :=
| Attach (s : signal)
| Read (s : signal)
| Notify (cb : callback) (value old_value : V).

(** The signal: its attributes, the callbacks registered with it (event
    type and callback, in the order of registration), what each sub signal's
    [get()] answers, and the events so far (oldest first).  The lock is
    re-entrant and every method runs to its end here, so it is left out. *)
Record AggregateSignal : Type := mkAggregate {
  _update_only_on_change : bool;
  _cache : gmap signal V;
  _has_subscribed : bool;
  _sub_signals : list signal;
  _readback : V;
  _callbacks : list (string * callback);
  source : signal -> outcome V;
  events : list event
}.

Abbreviation M := (state_exn AggregateSignal).

Definition set_cache (s : signal) (v : V) (self : AggregateSignal) :=
  mkAggregate (_update_only_on_change self) (<[s:=v]> (_cache self))
    (_has_subscribed self) (_sub_signals self) (_readback self)
    (_callbacks self) (source self) (events self).

Definition set_readback (v : V) (self : AggregateSignal) :=
  mkAggregate (_update_only_on_change self) (_cache self)
    (_has_subscribed self) (_sub_signals self) v
    (_callbacks self) (source self) (events self).

Definition add_callback (c : string * callback) (self : AggregateSignal) :=
  mkAggregate (_update_only_on_change self) (_cache self)
    (_has_subscribed self) (_sub_signals self) (_readback self)
    (_callbacks self ++ [c]) (source self) (events self).

Definition emit (es : list event) (self : AggregateSignal) :=
  mkAggregate (_update_only_on_change self) (_cache self)
    (_has_subscribed self) (_sub_signals self) (_readback self)
    (_callbacks self) (source self) (events self ++ es).

(** [__init__]: an empty cache, nothing subscribed, no sub signals; a
    subclass appends its sub signals afterwards. *)
Definition init (update_only_on_change : bool) (value : V)
    (src : signal -> outcome V) : AggregateSignal :=
  mkAggregate update_only_on_change ∅ false [] value [] src [].

Definition lift {A} (o : outcome A) : M A := fun self => (o, self).

(** [for x in l: body] *)
Fixpoint for_ {A} (l : list A) (body : A -> M unit) : M unit :=
  match l with
  | [] => mret tt
  | x :: l' => body x;; for_ l' body
  end.

(** [signal.get()] of a sub signal. *)
Definition signal_get (s : signal) : M V :=
  modify (emit [Read s]);;
  src ← attr source;
  lift (src s).

(** [signal.subscribe(self._run_sub_value, run=False)] on a sub signal. *)
Definition signal_subscribe (s : signal) : M unit := modify (emit [Attach s]).

(** [self._run_subs(sub_type=self.SUB_VALUE, obj=self, value=..., old_value=...)]:
    every callback registered for the value event is called, in the order
    of registration. *)
Definition _run_subs (value old_value : V) : M unit :=
  cbs ← attr _callbacks;
  modify (emit (map (fun c => Notify (snd c) value old_value)
                    (filter (fun c => fst c = SUB_VALUE) cbs))).

Definition _update_state : M unit :=
  cache ← attr _cache;
  v ← lift (_calc_readback cache);
  modify (set_readback v).

Definition _insert_value (s : signal) (value : V) : M V :=
  modify (set_cache s value);;
  _update_state;;
  attr _readback.

Definition get : M V :=
  sigs ← attr _sub_signals;
  for_ sigs (fun s => v ← signal_get s; modify (set_cache s v));;
  _update_state;;
  attr _readback.

(** [super().subscribe(cb, event_type=event_type, run=run)]: ophyd registers
    the callback under the event type ([None] is the default one, the value
    event) and answers its number. *)
Definition super_subscribe (cb : callback) (event_type : option string)
    (run : bool) : M nat :=
  cid ← attr (fun self => length (_callbacks self));
  modify (add_callback (default SUB_VALUE event_type, cb));;
  mret cid.

Definition subscribe (cb : callback) (event_type : option string)
    (run : bool) : M nat :=
  cid ← super_subscribe cb event_type run;
  has_subscribed ← attr _has_subscribed;
  (if bool_decide (event_type = None ∨ event_type = Some SUB_VALUE)
      && negb has_subscribed
   then
     sigs ← attr _sub_signals;
     for_ sigs signal_subscribe;;
     get;;
     mret tt
   else mret tt);;
  mret cid.

(** The handler attached to the sub signals; [s] is the [obj] keyword and
    [value] the [value] keyword of the notification. *)
Definition _run_sub_value (s : signal) (value : V) : M unit :=
  old_value ← attr _readback;
  value ← _insert_value s value;
  only_on_change ← attr _update_only_on_change;
  if py_ne value old_value || negb only_on_change
  then _run_subs value old_value
  else mret tt.

(** The cache after the loop of [get] over [sigs]: every sub signal that
    answers has its answer in its slot. *)
Definition pulled (src : signal -> outcome V) (sigs : list signal)
    (cache : gmap signal V) : gmap signal V :=
  foldl (fun c s => match src s with Return v => <[s:=v]> c | Raise _ => c end)
        cache sigs.

(** The readback is what the calculation gives on the cache. *)
Definition consistent (self : AggregateSignal) : Prop :=
  _calc_readback (_cache self) = Return (_readback self).

(** A method keeps [_has_subscribed] when the flag is after it what it was
    before, whether the method returns or raises. *)
Definition keeps_flag {A} (m : M A) : Prop :=
  forall self, _has_subscribed (snd (m self)) = _has_subscribed self.

End AggregateSignal.
(** A subclass appends the signals it is composed of. *)
Definition with_sub_signals {V} (sigs : list signal)
    (self : AggregateSignal (V:=V)) : AggregateSignal :=
  mkAggregate (_update_only_on_change self) (_cache self)
    (_has_subscribed self) (_sub_signals self ++ sigs) (_readback self)
    (_callbacks self) (source self) (events self).

(** A subclass for the examples: integer values, the readback is the sum of
    the cached values, and sub signal [s] reads [10 * s]. *)
Definition Z_ne (a b : Z) : bool := negb (a =? b)%Z.

Definition sum_readback (cache : gmap signal Z) : outcome Z :=
  Return (map_fold (fun _ v acc => (v + acc)%Z) 0%Z cache).

(** [_calc_readback] of the base class. *)
Definition base_calc_readback {V} (cache : gmap signal V) : outcome V :=
  Raise NotImplementedError.

(** Three sub signals of which the second does not answer. *)
Definition flaky_signals : AggregateSignal :=
  with_sub_signals [1; 2; 3]
    (init true 0%Z
       (fun s => if (s =? 2)%nat then Raise ValueError
                 else Return (10 * Z.of_nat s)%Z)).

Definition two_signals : AggregateSignal :=
  with_sub_signals [1; 2]
    (init true 0%Z (fun s => Return (10 * Z.of_nat s)%Z)).

End Aggregate.

(** ** [signal.AvgSignal]

    The samples and the buffer are float64, as in the source: Rocq's
    primitive floats, with their one NaN. *)

Module Avg.

(** The signal: the buffer size, the cursor, the buffer, and the value
    last [put] ([None] before the first one). *)
Record AvgSignal : Type := mkAvg {
  _avg : nat;
  index : nat;
  values : list float;
  _readback : option float
}.

Abbreviation M := (state_exn AvgSignal).

(** The setter of [averages]: a buffer of [avg] NaN, the cursor at zero. *)
Definition set_averages (avg : nat) (self : AvgSignal) : AvgSignal :=
  mkAvg avg 0 (replicate avg nan) (_readback self).

(** [__init__], as far as the buffer goes. *)
Definition init (averages : nat) : AvgSignal :=
  set_averages averages (mkAvg 0 0 [] None).

(** [self.put(value)] *)
Definition put (value : float) : M unit :=
  modify (fun self => mkAvg (_avg self) (index self) (values self) (Some value)).

(** [self.values[i] = value]: outside the array numpy raises. *)
Definition values_setitem (i : nat) (value : float) : M unit :=
  fun self =>
    if decide (i < length (values self))
    then (Return tt,
          mkAvg (_avg self) (index self) (<[i:=value]> (values self))
                (_readback self))
    else (Raise IndexError, self).

Section Update.

(** [np.nanmean] on a one-dimensional float64 array: numpy's function, a
    parameter. *)
Variable np_nanmean : list float -> float.

Definition _update_avg (value : float) : M unit :=
  i ← attr index;
  values_setitem i value;;
  modify (fun self =>
            mkAvg (_avg self) ((index self + 1) mod length (values self))
                  (values self) (_readback self));;
  vs ← attr values;
  put (np_nanmean vs).

(** The source delivers the samples one after the other. *)
Fixpoint feed (samples : list float) : M unit :=
  match samples with
  | [] => mret tt
  | x :: rest => _update_avg x;; feed rest
  end.

End Update.

(** The last [n] elements of a list. *)
Definition last_n {A} (n : nat) (l : list A) : list A :=
  drop (length l - n) l.

(** The buffer against the stream of what was written to it, the NaN of
    the allocation first: the slots before the cursor hold the newest
    entries of the stream, the slots from the cursor on the ones before
    them, and together they are the last [n] entries of the stream. *)
Definition buffer_holds (n : nat) (stream : list float)
    (self : AvgSignal) : Prop :=
  exists older newer : list float,
    values self = newer ++ older
    /\ last_n n stream = older ++ newer
    /\ index self = length newer
    /\ length newer < n
    /\ length (values self) = n.

(** What [np.nanmean] gives on an array of a few entries: the NaN entries
    count as zero in the sum, the entries are added in slot order, each
    addition rounded, and the sum is divided by the number of entries that
    are not NaN. *)
Definition float_of_nat (n : nat) : float :=
  PrimFloat.of_uint63 (Uint63.of_Z (Z.of_nat n)).

Definition nanmean_in_order (a : list float) : float :=
  let arr := map (fun v => if PrimFloat.is_nan v then 0%float else v) a in
  let cnt := length (filter (fun v => PrimFloat.is_nan v = false) a) in
  (foldl PrimFloat.add 0%float arr / float_of_nat cnt)%float.



End Avg.

(** ** [signal.UnitConversionDerivedSignal] *)

Module UnitConversion.
Local Open Scope string_scope.

(** The numbers a signal carries are whatever Python numbers the source
    delivers; [forward] and [inverse] use their [-] and [+] only. *)
Class PyNumber (T : Type) : Type := {
  py_sub : T -> T -> T;
  py_add : T -> T -> T
}.

(** A unit is a name, or [None] while [original_units] is not known. *)
Abbreviation unit_name := (option string).

Section UnitConversionDerivedSignal.

Context {T : Type} `{PyNumber T}.

(** [utils.convert_unit(value, unit, new_unit)], which is not part of the
    module: a parameter. *)
Variable convert_unit : T -> unit_name -> unit_name -> outcome T.

Record UnitConversionDerivedSignal : Type := mkUnitConversion {
  derived_units : unit_name;
  original_units : unit_name;
  _user_offset : option T
}.

(** [__init__]: [original_units] defaults to [None]. *)
Definition init (derived : string) (original : unit_name)
    (user_offset : option T) : UnitConversionDerivedSignal :=
  mkUnitConversion (Some derived) original user_offset.

Definition user_offset (self : UnitConversionDerivedSignal) : option T :=
  _user_offset self.

Definition forward (self : UnitConversionDerivedSignal) (value : T) : outcome T :=
  match user_offset self with
  | None => Raise ValueError
  | Some offset =>
      convert_unit (py_sub value offset) (derived_units self) (original_units self)
  end.

Definition inverse (self : UnitConversionDerivedSignal) (value : T) : outcome T :=
  match user_offset self with
  | None => Raise ValueError
  | Some offset =>
      v ← convert_unit value (original_units self) (derived_units self);
      mret (py_add v offset)
  end.

(** The setter of [user_offset] and [_recalculate_position] need the
    signal this one is derived from: whether it is connected, what its
    [get()] answers, and the values handed to [_derived_value_callback]
    (ophyd's, oldest first). *)
Record derived : Type := mkDerived {
  signal : UnitConversionDerivedSignal;
  source_connected : bool;
  source_value : option T;
  handed_on : list T
}.

Definition _recalculate_position (self : derived) : derived :=
  if negb (source_connected self) then self
  else
    match source_value self with
    | Some value =>
        mkDerived (signal self) (source_connected self) (source_value self)
                  (handed_on self ++ [value])
    | None => self
    end.

Definition set_user_offset (offset : option T) (self : derived) : derived :=
  _recalculate_position
    (mkDerived
       (mkUnitConversion (derived_units (signal self))
          (original_units (signal self)) offset)
       (source_connected self) (source_value self) (handed_on self)).

(** [_derived_metadata_callback(connected=..., **kwargs)], after the call
    of the base class: [units] is [None] when the keyword is not there. *)
Definition _derived_metadata_callback (connected : bool)
    (units : option unit_name) (self : UnitConversionDerivedSignal) :
    UnitConversionDerivedSignal :=
  match units with
  | Some u =>
      if connected
      then match original_units self with
           | None => mkUnitConversion (derived_units self) u (_user_offset self)
           | Some _ => self
           end
      else self
  | None => self
  end.

(** The part of a description that [describe] touches: the units and the
    two control limits, each of which may be missing. *)
Record description : Type := mkDescription {
  units : option unit_name;
  lower_ctrl_limit : option T;
  upper_ctrl_limit : option T
}.

Definition describe (self : UnitConversionDerivedSignal) (desc : description) :
    outcome description :=
  let desc :=
    mkDescription (Some (derived_units self)) (lower_ctrl_limit desc)
                  (upper_ctrl_limit desc) in
  desc ← match lower_ctrl_limit desc with
         | Some limit =>
             v ← inverse self limit;
             mret (mkDescription (units desc) (Some v) (upper_ctrl_limit desc))
         | None => mret desc
         end;
  match upper_ctrl_limit desc with
  | Some limit =>
      v ← inverse self limit;
      mret (mkDescription (units desc) (lower_ctrl_limit desc) (Some v))
  | None => mret desc
  end.

End UnitConversionDerivedSignal.


(** Python's [fractions.Fraction]: exact rationals. *)
#[export] Instance fraction_number : PyNumber Qc := {
  py_sub := Qcminus;
  py_add := Qcplus
}.





(** Converters for the examples.  Between a unit and itself the value is
    what it was; between metres and millimetres it is scaled by a thousand;
    any other pair of units is refused. *)
Definition convert_same {T} (value : T) (unit new_unit : unit_name) : outcome T :=
  if bool_decide (unit = new_unit /\ unit <> None)
  then Return value else Raise ValueError.

Definition convert_metric (value : Qc) (unit new_unit : unit_name) : outcome Qc :=
  match unit, new_unit with
  | Some "m", Some "mm" => Return (value * Q2Qc 1000)%Qc
  | Some "mm", Some "m" => Return (value / Q2Qc 1000)%Qc
  | _, _ => convert_same value unit new_unit
  end.

End UnitConversion.

(** * Properties *)

(** ** The coordinate transform and the moves of [Kappa] *)

Section KappaProperties.
Import NumPy Gon.
Local Open Scope string_scope.

(** Looking up a name the class does not have raises, whatever would have
    been found. *)
Lemma self_missing {A} (name : string) (found : M A) (self : Kappa) :
  name ∉ Kappa_dir -> self_ name found self = (Raise (AttributeError name), self).
Proof.
  intros Hname. unfold self_. rewrite bool_decide_eq_false_2; done.
Qed.

Lemma self_found {A} (name : string) (found : M A) :
  name ∈ Kappa_dir -> self_ name found = found.
Proof.
  intros Hname. unfold self_. rewrite bool_decide_eq_true_2; done.
Qed.

(** [kappa_position] reads [self.kap], which no [Kappa] has. *)
Lemma kappa_position_raises (self : Kappa) :
  kappa_position self = (Raise (AttributeError "kap"), self).
Proof. reflexivity. Qed.

(** With [kappa] left as [None], [k_to_e] fails on the live value. *)
Lemma k_to_e_live_kappa_raises (eta phi : pyval) (self : Kappa) :
  fst (k_to_e eta PyNone phi self) = Raise (AttributeError "kap").
Proof.
  unfold k_to_e.
  destruct eta as [|x]; cbn; [reflexivity|].
  destruct (is_zero x); reflexivity.
Qed.

(** With [kappa] given, [k_to_e] never binds the local [kap] it reads. *)
Lemma k_to_e_given_kappa_raises (eta kappa phi : npfloat) (self : Kappa) :
  k_to_e (PyNum eta) (PyNum kappa) (PyNum phi) self
  = (Raise (UnboundLocalError "kap"), self).
Proof.
  unfold k_to_e. cbn.
  destruct (is_zero eta), (is_zero kappa), (is_zero phi); reflexivity.
Qed.

(** C1 (fails on the code): for every device and every triple
    [(eta, kappa, phi)] of numbers, [e_to_k(k_to_e(eta, kappa, phi))] gives
    no triple at all: [k_to_e] raises [UnboundLocalError] for its local
    [kap], which is assigned only when [kappa] is left out. *)
Theorem round_trip_raises (eta kappa phi : npfloat) (self : Kappa) :
  round_trip eta kappa phi self = (Raise (UnboundLocalError "kap"), self).
Proof.
  unfold round_trip, mbind, state_exn_bind.
  rewrite k_to_e_given_kappa_raises. reflexivity.
Qed.

(** An argument that is a number is never replaced by the live value. *)
Lemma given_is_kept (x : npfloat) : py_not (PyNum x) && py_ne_0 (PyNum x) = false.
Proof. cbn. destruct (is_zero x); reflexivity. Qed.

(** [e_to_k] does not accept the keywords the moves pass. *)
Lemma call_e_to_k_unexpected (k : string) (value : pyval) (self : Kappa) :
  k ∉ e_to_k_params ->
  call_e_to_k [(k, value)] self
  = (Raise (TypeError k), record_call [(k, value)] self).
Proof.
  intros Hk. unfold call_e_to_k, unexpected_keyword. cbn.
  rewrite bool_decide_eq_false_2 by done. reflexivity.
Qed.

Lemma mv_e_eta_raises (value : pyval) (self : Kappa) :
  mv_e_eta value self
  = (Raise (TypeError "eta"), record_call [("eta", value)] self).
Proof. reflexivity. Qed.

Lemma mv_e_chi_raises (value : pyval) (self : Kappa) :
  mv_e_chi value self
  = (Raise (TypeError "chi"),
     record_call
       [("chi", if py_eq_0 value then PyNum (lit (10 / 10 ^ 9)) else value)]
       self).
Proof. reflexivity. Qed.

Lemma mv_e_phi_raises (value : pyval) (self : Kappa) :
  mv_e_phi value self = (Raise (AttributeError "E2K"), self).
Proof. reflexivity. Qed.

(** C2 (fails on the code): no move in a spherical coordinate converts
    anything or reaches a motor.  [mv_e_eta] and [mv_e_chi] call [e_to_k]
    with a keyword it does not have ([eta], [chi]) and [mv_e_phi] looks up
    [self.E2K]; each raises an error its handler does not catch, and no
    command is issued. *)
Theorem mv_e_raise_before_converting (value : pyval) (self : Kappa) :
  (fst (mv_e_eta value self) = Raise (TypeError "eta")
   /\ issued (snd (mv_e_eta value self)) = issued self)
  /\ (fst (mv_e_chi value self) = Raise (TypeError "chi")
      /\ issued (snd (mv_e_chi value self)) = issued self)
  /\ (fst (mv_e_phi value self) = Raise (AttributeError "E2K")
      /\ issued (snd (mv_e_phi value self)) = issued self).
Proof.
  rewrite mv_e_eta_raises, mv_e_chi_raises, mv_e_phi_raises. cbn. done.
Qed.

(** [check_motor_step] reads [self.kappa_postion] after the eta position:
    the class has [kappa_position] only. *)
Lemma check_motor_step_unfold (eta kappa phi : npfloat) (self : Kappa) :
  check_motor_step eta kappa phi self
  = (Raise (AttributeError "kappa_postion"), self).
Proof. reflexivity. Qed.

(** C3 (fails on the code): for every destination, all positions and all
    thresholds, [check_motor_step] raises [AttributeError]; it returns
    neither [True] for steps within the thresholds nor asks for steps
    beyond them. *)
Theorem check_motor_step_raises (eta kappa phi : npfloat) (self : Kappa) :
  fst (check_motor_step eta kappa phi self)
  = Raise (AttributeError "kappa_postion")
  /\ returns (fst (check_motor_step eta kappa phi self)) = false.
Proof. rewrite check_motor_step_unfold. done. Qed.

(** C4 (fails on the code): whatever the operator would answer,
    [check_motor_step] never returns [False]: it raises before it compares
    a step with its threshold, and the answer is never read. *)
Theorem check_motor_step_never_declines (eta kappa phi : npfloat) (self : Kappa) :
  fst (check_motor_step eta kappa phi self) <> Return false
  /\ stdin (snd (check_motor_step eta kappa phi self)) = stdin self
  /\ issued (snd (check_motor_step eta kappa phi self)) = issued self.
Proof. rewrite check_motor_step_unfold. done. Qed.

Lemma Reqb_true (a b : R) : a = b -> Reqb a b = true.
Proof. intros ->. unfold Reqb. destruct (Req_dec_T b b); done. Qed.

Lemma Reqb_false (a b : R) : a <> b -> Reqb a b = false.
Proof. intros Hne. unfold Reqb. destruct (Req_dec_T a b); done. Qed.

Lemma ten_nano_is_not_zero : py_eq_0 (PyNum (lit (10 / 10 ^ 9))) = false.
Proof.
  unfold py_eq_0, py_ne_0, is_zero, lit. rewrite Reqb_false; [reflexivity|].
  apply Rgt_not_eq. apply Rdiv_lt_0_compat; [lra|]. apply pow_lt. lra.
Qed.

(** C10: [mv_e_chi] hands [e_to_k] the value [10e-9] in place of a value
    equal to zero and any other value as it is, so the value handed over is
    never zero; and no motor is commanded with anything. *)
Theorem mv_e_chi_replaces_zero (value : pyval) (self : Kappa) :
  let passed := if py_eq_0 value then PyNum (lit (10 / 10 ^ 9)) else value in
  e_to_k_calls (snd (mv_e_chi value self))
  = (e_to_k_calls self ++ [[("chi", passed)]])%list
  /\ py_eq_0 passed = false
  /\ issued (snd (mv_e_chi value self)) = issued self.
Proof.
  intros passed. rewrite mv_e_chi_raises. subst passed.
  split; [reflexivity|]. split; [|reflexivity].
  destruct (py_eq_0 value) eqn:Hzero; [|exact Hzero].
  exact ten_nano_is_not_zero.
Qed.

(** Degrees to radians, and the constants of the transform, on finite
    numbers. *)
Lemma fdiv_Fin (a b : R) : b <> 0%R -> (Fin a / Fin b)%np = Fin (a / b).
Proof. intros Hb. cbn. rewrite Reqb_false by exact Hb. reflexivity. Qed.

Lemma to_radians (x : R) : (Fin x * np_pi / lit 180)%np = Fin (x * PI / 180).
Proof. unfold np_pi, lit. cbn [fmul]. apply fdiv_Fin. lra. Qed.

Lemma half_angle (x : R) :
  (Fin x * np_pi / lit 180 / lit 2)%np = Fin (x * PI / 180 / 2).
Proof. rewrite to_radians. unfold lit. apply fdiv_Fin. lra. Qed.

Lemma e_to_k_given (e_eta e_chi e_phi : npfloat) (self : Kappa) :
  e_to_k (PyNum e_eta) (PyNum e_chi) (PyNum e_phi) self
  = (Return (e_to_k_calc (kappa_ang self) e_eta e_chi e_phi), self).
Proof. unfold e_to_k. rewrite !given_is_kept. reflexivity. Qed.

(** With [kappa_ang = 0] the sine and the tangent of the angle are zero,
    both quotients are infinite or NaN, and so is everything after them. *)
Lemma arcsin_of_quotient_by_zero (x : npfloat) : np_arcsin (x / Fin 0)%np = NaN.
Proof.
  destruct x as [a| | |]; cbn; rewrite ?(Reqb_true 0 0) by reflexivity;
    try reflexivity.
  - destruct (Reqb a 0); [reflexivity|]. destruct (Rltb a 0); reflexivity.
  - destruct (Rltb 0 0); reflexivity.
  - destruct (Rltb 0 0); reflexivity.
Qed.

Lemma fsub_NaN (x : npfloat) : (x - NaN)%np = NaN.
Proof. destruct x; reflexivity. Qed.

Lemma e_to_k_calc_zero_angle (e_eta e_chi e_phi : npfloat) :
  e_to_k_calc (Fin 0) e_eta e_chi e_phi = (NaN, NaN, NaN).
Proof.
  unfold e_to_k_calc. rewrite to_radians.
  replace (0 * PI / 180)%R with 0%R by lra.
  assert (Htan : np_tan (Fin 0) = Fin 0) by (cbn; rewrite tan_0; reflexivity).
  assert (Hsin : np_sin (Fin 0) = Fin 0) by (cbn; rewrite sin_0; reflexivity).
  rewrite !Htan, !Hsin, !arcsin_of_quotient_by_zero, !fsub_NaN. reflexivity.
Qed.

(** C5 (as the code has it): [e_to_k] makes no domain check.  Called with
    three numbers it raises nothing, whatever [kappa_ang] and the numbers
    are: it returns a triple and leaves the device as it was; and with
    [kappa_ang = 0] every number of that triple is NaN. *)
Theorem e_to_k_never_raises (e_eta e_chi e_phi : npfloat) (self : Kappa) :
  exists k : triple,
    e_to_k (PyNum e_eta) (PyNum e_chi) (PyNum e_phi) self = (Return k, self)
    /\ (kappa_ang self = Fin 0 -> k = (NaN, NaN, NaN)).
Proof.
  rewrite e_to_k_given. eexists. split; [reflexivity|].
  intros ->. apply e_to_k_calc_zero_angle.
Qed.

(** C5, a request outside the domain: with [kappa_ang = 0], a multiple of
    180 degrees, [e_to_k(0, 0, 0)] returns [(nan, nan, nan)] and raises
    nothing. *)
Lemma e_to_k_degenerate_angle_returns_nan :
  let self := init (lit 0) (fun _ => lit 0) [] in
  e_to_k (PyNum (lit 0)) (PyNum (lit 0)) (PyNum (lit 0)) self
  = (Return (NaN, NaN, NaN), self)
  /\ returns (fst (e_to_k (PyNum (lit 0)) (PyNum (lit 0)) (PyNum (lit 0)) self))
     = true.
Proof.
  intros self. rewrite e_to_k_given. split; [|reflexivity].
  unfold self, init, lit. cbn [kappa_ang].
  rewrite e_to_k_calc_zero_angle. reflexivity.
Qed.

End KappaProperties.

(** ** [AggregateSignal]: subscriptions and change suppression *)

Section AggregateProperties.
Import Aggregate.
Context {V : Type} (py_ne : V -> V -> bool).
Context (_calc_readback : gmap signal V -> outcome V).

#[local] Abbreviation AggregateSignal := (AggregateSignal (V:=V)).
#[local] Abbreviation M := (state_exn AggregateSignal).

Lemma keeps_flag_ret {A} (a : A) : keeps_flag (mret a : M A).
Proof. intros self. reflexivity. Qed.

Lemma keeps_flag_attr {A} (f : AggregateSignal -> A) : keeps_flag (attr f).
Proof. intros self. reflexivity. Qed.

Lemma keeps_flag_lift {A} (o : outcome A) : keeps_flag (lift o : M A).
Proof. intros self. reflexivity. Qed.

Lemma keeps_flag_modify (f : AggregateSignal -> AggregateSignal) :
  (forall self, _has_subscribed (f self) = _has_subscribed self) ->
  keeps_flag (modify f).
Proof. intros Hf self. apply Hf. Qed.

Lemma keeps_flag_bind {A B} (m : M A) (k : A -> M B) :
  keeps_flag m -> (forall a, keeps_flag (k a)) -> keeps_flag (m ≫= k).
Proof.
  intros Hm Hk self. unfold mbind, state_exn_bind.
  specialize (Hm self). destruct (m self) as [[a|e] self']; cbn in *.
  - rewrite Hk. exact Hm.
  - exact Hm.
Qed.

Lemma keeps_flag_for {A} (l : list A) (body : A -> M unit) :
  (forall a, keeps_flag (body a)) -> keeps_flag (for_ l body).
Proof.
  intros Hbody. induction l as [|a l IH]; cbn [for_].
  - apply keeps_flag_ret.
  - apply keeps_flag_bind; [apply Hbody | intros _; exact IH].
Qed.

Create HintDb flag discriminated.
#[local] Hint Resolve keeps_flag_ret keeps_flag_attr keeps_flag_lift
  keeps_flag_modify keeps_flag_bind keeps_flag_for : flag.

Lemma get_keeps_flag : keeps_flag (get _calc_readback).
Proof.
  unfold get, _update_state, signal_get.
  repeat (first [apply keeps_flag_bind; [|intros ?] | apply keeps_flag_for; intros ?
                | apply keeps_flag_modify; intros ?; reflexivity
                | solve [auto with flag]]).
Qed.

(** No subscription sets [_has_subscribed]: it is [False] from [__init__]
    on, so the test in [subscribe] never stops a later subscription. *)
Lemma subscribe_keeps_flag (cb : callback) (event_type : option string)
    (run : bool) :
  keeps_flag (subscribe _calc_readback cb event_type run).
Proof.
  unfold subscribe, super_subscribe, signal_subscribe.
  repeat (first [apply keeps_flag_bind; [|intros ?] | apply keeps_flag_for; intros ?
                | apply keeps_flag_modify; intros ?; reflexivity
                | apply get_keeps_flag
                | match goal with |- keeps_flag (if ?b then _ else _) => destruct b end
                | solve [auto with flag]]).
Qed.

(** What [_insert_value] leaves behind when the calculation raises: the
    slot holds the new value all the same, and the error goes to the
    caller. *)
Lemma insert_value_raises (s : signal) (value : V) (e : exn)
    (self : AggregateSignal) :
  _calc_readback (<[s:=value]> (_cache self)) = Raise e ->
  _insert_value _calc_readback s value self
  = (Raise e, set_cache s value self).
Proof.
  intros Hcalc. unfold _insert_value, _update_state, mbind, state_exn_bind.
  cbn. rewrite Hcalc. reflexivity.
Qed.

Lemma insert_value_returns (s : signal) (value new : V)
    (self : AggregateSignal) :
  _calc_readback (<[s:=value]> (_cache self)) = Return new ->
  _insert_value _calc_readback s value self
  = (Return new, set_readback new (set_cache s value self)).
Proof.
  intros Hcalc. unfold _insert_value, _update_state, mbind, state_exn_bind.
  cbn. rewrite Hcalc. reflexivity.
Qed.

Lemma run_sub_value_unfold (s : signal) (value new : V)
    (self : AggregateSignal) :
  _update_only_on_change self = true ->
  _calc_readback (<[s:=value]> (_cache self)) = Return new ->
  _run_sub_value py_ne _calc_readback s value self
  = (if py_ne new (_readback self)
     then _run_subs new (_readback self)
     else mret tt) (set_readback new (set_cache s value self)).
Proof.
  intros Honly Hcalc.
  unfold _run_sub_value, mbind, state_exn_bind. cbn [attr].
  rewrite (insert_value_returns _ _ _ _ Hcalc).
  cbn [set_readback set_cache _update_only_on_change].
  rewrite Honly. cbn [negb]. rewrite orb_false_r. reflexivity.
Qed.

(** C7: with [_update_only_on_change] set, a notification of [value] from
    sub signal [s] whose recalculation gives [new] stores [value] in the
    slot of [s] and [new] as the readback; it calls no observer when [new]
    is not [!=] to the readback before, and otherwise calls every callback
    registered for the value event, in order, with [new] and the readback
    before. *)
Theorem run_sub_value_suppresses_unchanged (s : signal) (value new : V)
    (self : AggregateSignal) :
  _update_only_on_change self = true ->
  _calc_readback (<[s:=value]> (_cache self)) = Return new ->
  let old := _readback self in
  let result := _run_sub_value py_ne _calc_readback s value self in
  fst result = Return tt
  /\ _cache (snd result) = <[s:=value]> (_cache self)
  /\ _readback (snd result) = new
  /\ events (snd result)
     = events self
       ++ (if py_ne new old
           then map (fun c => Notify (snd c) new old)
                    (filter (fun c => fst c = SUB_VALUE) (_callbacks self))
           else []).
Proof.
  intros Honly Hcalc old result. subst result.
  rewrite (run_sub_value_unfold _ _ _ _ Honly Hcalc). fold old.
  destruct (py_ne new old); cbn.
  - done.
  - rewrite app_nil_r. done.
Qed.

End AggregateProperties.

(** C7 on the example subclass, with two observers registered: when sub
    signal 1 goes from nothing to 5 both hear of the readback going from 0
    to 5, and when it goes from nothing to 0 the readback stays 0 and
    nobody is called. *)
Lemma run_sub_value_suppresses_unchanged_example :
  let self :=
    Aggregate.add_callback ("value", 8)
      (Aggregate.add_callback ("value", 7) Aggregate.two_signals) in
  Aggregate.events
    (snd (Aggregate._run_sub_value Aggregate.Z_ne Aggregate.sum_readback 1 5%Z self))
  = [Aggregate.Notify 7 5%Z 0%Z; Aggregate.Notify 8 5%Z 0%Z]
  /\ Aggregate.events
       (snd (Aggregate._run_sub_value Aggregate.Z_ne Aggregate.sum_readback 1 0%Z self))
     = []
  /\ Aggregate._cache
       (snd (Aggregate._run_sub_value Aggregate.Z_ne Aggregate.sum_readback 1 0%Z self))
     !! 1 = Some 0%Z.
Proof.
  intros self.
  pose proof (run_sub_value_suppresses_unchanged Aggregate.Z_ne
                Aggregate.sum_readback 1 5%Z 5%Z self eq_refl eq_refl)
    as (_ & _ & _ & Hchanged).
  pose proof (run_sub_value_suppresses_unchanged Aggregate.Z_ne
                Aggregate.sum_readback 1 0%Z 0%Z self eq_refl eq_refl)
    as (_ & Hcache & _ & Hsame).
  rewrite Hchanged, Hsame, Hcache. repeat split.
Defined.

(** C6 (fails on the code): on the example subclass with sub signals 1 and
    2, two subscriptions to the value event one after the other: the second
    attaches the handler to both sub signals again and reads both again,
    and [_has_subscribed] is still [False] after both. *)
Theorem second_subscription_attaches_again :
  let result :=
    (Aggregate.subscribe Aggregate.sum_readback 7 None true;;
     Aggregate.subscribe Aggregate.sum_readback 8 (Some Aggregate.SUB_VALUE) true)
      Aggregate.two_signals in
  Aggregate.events (snd result)
  = [Aggregate.Attach 1; Aggregate.Attach 2; Aggregate.Read 1; Aggregate.Read 2;
     Aggregate.Attach 1; Aggregate.Attach 2; Aggregate.Read 1; Aggregate.Read 2]
  /\ Aggregate._has_subscribed (snd result) = false.
Proof. vm_compute. done. Qed.

(** ** [AvgSignal]: the rolling buffer and the value put *)

Section AvgProperties.
Import Avg.
Context (np_nanmean : list float -> float).

(** One more entry in a stream with a full window moves the window on by
    one. *)
Lemma last_n_snoc {A} (n : nat) (stream : list A) (o x : A) (rest : list A) :
  length (o :: rest) = n ->
  last_n n stream = o :: rest ->
  last_n n (stream ++ [x]) = rest ++ [x].
Proof.
  unfold last_n. cbn [length]. intros Hn Hwin.
  assert (Hlen : n <= length stream).
  { apply (f_equal length) in Hwin. rewrite length_drop in Hwin.
    cbn [length] in Hwin. lia. }
  rewrite length_app. cbn [length].
  replace (length stream + 1 - n) with (length stream - n + 1) by lia.
  rewrite drop_app_le by lia.
  rewrite <- drop_drop, Hwin. reflexivity.
Qed.

(** The allocation of the setter is where the invariant starts. *)
Lemma set_averages_buffer_holds (n : nat) (self : AvgSignal) :
  1 <= n -> buffer_holds n (replicate n nan) (set_averages n self).
Proof.
  intros Hn. exists (replicate n nan), []. cbn.
  unfold last_n. rewrite !length_replicate, Nat.sub_diag, app_nil_r.
  repeat split; try done.
Qed.

(** One update: the sample takes the slot at the cursor, which held the
    oldest entry of the window, and [nanmean] of the buffer is put. *)
Lemma update_avg_buffer_holds (n : nat) (stream : list float) (x : float)
    (self : AvgSignal) :
  buffer_holds n stream self ->
  exists self' : AvgSignal,
    _update_avg np_nanmean x self = (Return tt, self')
    /\ buffer_holds n (stream ++ [x]) self'
    /\ _readback self' = Some (np_nanmean (values self')).
Proof.
  intros (older & newer & Hvalues & Hwindow & Hindex & Hnewer & Hlen).
  destruct older as [|o older].
  { rewrite Hvalues, app_nil_r in Hlen. lia. }
  assert (Hn : length (newer ++ o :: older) = n) by (rewrite <- Hvalues; exact Hlen).
  rewrite length_app in Hn. cbn [length] in Hn.
  eexists. split.
  { unfold _update_avg, mbind, state_exn_bind, values_setitem, attr, modify, put.
    cbn. rewrite decide_True by (rewrite Hindex, Hlen; exact Hnewer).
    cbn. reflexivity. }
  cbn [_readback values index].
  assert (Hwrite : <[index self:=x]> (values self) = newer ++ x :: older).
  { rewrite Hvalues, Hindex, insert_app_r_alt by lia.
    rewrite Nat.sub_diag. reflexivity. }
  rewrite !Hwrite. split; [|reflexivity].
  assert (Hnext : last_n n (stream ++ [x]) = older ++ newer ++ [x]).
  { rewrite (last_n_snoc n stream o x (older ++ newer)).
    - rewrite <- app_assoc. reflexivity.
    - cbn. rewrite length_app. lia.
    - exact Hwindow. }
  assert (Hlen' : length (newer ++ x :: older) = n).
  { rewrite length_app. cbn. lia. }
  rewrite Hindex, Hlen'.
  destruct older as [|o' older].
  - (* the cursor wraps around *)
    exists (newer ++ [x]), []. cbn [length] in Hn.
    replace (length newer + 1) with n by lia.
    rewrite Nat.Div0.mod_same. cbn [app values index].
    rewrite app_nil_r. rewrite Hnext. cbn [app length].
    repeat split; try done. lia.
  - exists (o' :: older), (newer ++ [x]). cbn [values index].
    cbn [length] in Hn.
    rewrite Nat.mod_small by lia.
    rewrite <- app_assoc. cbn [app]. rewrite Hnext, length_app. cbn [length].
    repeat split; try done. lia.
Qed.

(** A run of updates keeps the invariant; after at least one, the value put
    last is [nanmean] of the buffer. *)
Lemma feed_buffer_holds (n : nat) (samples stream : list float)
    (self : AvgSignal) :
  buffer_holds n stream self ->
  exists self' : AvgSignal,
    feed np_nanmean samples self = (Return tt, self')
    /\ buffer_holds n (stream ++ samples) self'
    /\ (samples <> [] -> _readback self' = Some (np_nanmean (values self'))).
Proof.
  revert stream self.
  induction samples as [|x samples IH]; intros stream self Hinv.
  - exists self. rewrite app_nil_r. done.
  - destruct (update_avg_buffer_holds n stream x self Hinv)
      as (self1 & Hrun1 & Hinv1 & Hput1).
    destruct (IH (stream ++ [x]) self1 Hinv1) as (self2 & Hrun2 & Hinv2 & Hput2).
    exists self2. cbn [feed]. unfold mbind, state_exn_bind.
    rewrite Hrun1, Hrun2. rewrite <- app_assoc in Hinv2.
    repeat split; try done.
    intros _. destruct samples as [|y samples].
    + cbn in Hrun2. injection Hrun2 as <-. exact Hput1.
    + apply Hput2. discriminate.
Qed.

(** One update moves the cursor on by one, modulo the size, and changes
    neither the size of the buffer nor [_avg]. *)
Lemma update_avg_cursor (x : float) (self : AvgSignal) :
  index self < length (values self) ->
  exists self' : AvgSignal,
    _update_avg np_nanmean x self = (Return tt, self')
    /\ index self' = (index self + 1) mod length (values self)
    /\ length (values self') = length (values self)
    /\ _avg self' = _avg self.
Proof.
  intros Hindex. eexists. split.
  - unfold _update_avg, values_setitem, attr, modify, put, mbind, state_exn_bind.
    cbn. rewrite decide_True by exact Hindex. cbn. reflexivity.
  - cbn. rewrite length_insert. done.
Qed.

(** The cursor after a run of updates. *)
Lemma feed_cursor (n : nat) (samples : list float) (k : nat) (self : AvgSignal) :
  1 <= n ->
  index self = k mod n -> length (values self) = n -> _avg self = n ->
  fst (feed np_nanmean samples self) = Return tt
  /\ index (snd (feed np_nanmean samples self)) = (k + length samples) mod n
  /\ length (values (snd (feed np_nanmean samples self))) = n
  /\ _avg (snd (feed np_nanmean samples self)) = n.
Proof.
  intros Hn. revert k self.
  induction samples as [|x samples IH]; intros k st Hi Hl Ha.
  - cbn. rewrite Nat.add_0_r. done.
  - destruct (update_avg_cursor x st) as (st' & Hrun & Hi' & Hl' & Ha').
    { rewrite Hi, Hl. apply Nat.mod_upper_bound. lia. }
    cbn [feed]. unfold mbind, state_exn_bind. rewrite Hrun.
    destruct (IH (k + 1) st') as (Hr & Hidx & Hlen & Havg).
    + rewrite Hi', Hi, Hl. apply Nat.Div0.add_mod_idemp_l.
    + congruence.
    + congruence.
    + cbn [length].
      replace (k + S (length samples)) with (k + 1 + length samples) by lia.
      done.
Qed.

(** The window over the stream, the NaN of the allocation included. *)
Lemma window_while_filling (n : nat) (samples : list float) :
  length samples <= n ->
  last_n n (replicate n nan ++ samples)
  = replicate (n - length samples) nan ++ samples.
Proof.
  intros Hshort. unfold last_n. rewrite length_app, length_replicate.
  replace (n + length samples - n) with (length samples) by lia.
  rewrite drop_app_le by (rewrite length_replicate; lia).
  rewrite drop_replicate. reflexivity.
Qed.

Lemma window_when_full (n : nat) (samples : list float) :
  n <= length samples ->
  last_n n (replicate n nan ++ samples) = last_n n samples.
Proof.
  intros Hfull. unfold last_n. rewrite length_app, length_replicate.
  replace (n + length samples - n) with (length samples) by lia.
  rewrite drop_app_ge by (rewrite length_replicate; exact Hfull).
  rewrite length_replicate. reflexivity.
Qed.

(** The buffer and the value put after a run of updates that starts at the
    setter of [averages]. *)
Lemma feed_after_set_averages (n : nat) (samples : list float)
    (self : AvgSignal) :
  1 <= n -> samples <> [] ->
  let result := feed np_nanmean samples (set_averages n self) in
  fst result = Return tt
  /\ _readback (snd result) = Some (np_nanmean (values (snd result)))
  /\ (exists older newer : list float,
        values (snd result) = newer ++ older
        /\ last_n n (replicate n nan ++ samples) = older ++ newer
        /\ length newer = length samples mod n)
  /\ (length samples <= n ->
      values (snd result) = samples ++ replicate (n - length samples) nan)
  /\ (n <= length samples -> values (snd result) ≡ₚ last_n n samples).
Proof.
  intros Hn Hsamples result. subst result.
  destruct (feed_buffer_holds n samples (replicate n nan) (set_averages n self)
              (set_averages_buffer_holds n self Hn))
    as (self' & Hrun & (older & newer & Hvalues & Hwindow & Hindex & _ & Hlen) & Hput).
  destruct (feed_cursor n samples 0 (set_averages n self) Hn)
    as (_ & Hcursor & _ & _).
  { cbn. symmetry. apply Nat.Div0.mod_0_l. }
  { cbn. apply length_replicate. }
  { reflexivity. }
  rewrite Hrun in *. cbn [fst snd] in *. cbn [Nat.add] in Hcursor.
  rewrite Hindex in Hcursor.
  split; [reflexivity|]. split; [exact (Hput Hsamples)|].
  split; [exists older, newer; done|].
  split.
  - intros Hshort. rewrite (window_while_filling n samples Hshort) in Hwindow.
    destruct (decide (length samples = n)) as [Heq|Hlt].
    + rewrite Heq, Nat.Div0.mod_same in Hcursor.
      apply nil_length_inv in Hcursor. subst newer.
      rewrite Heq, Nat.sub_diag in *. cbn in Hwindow.
      rewrite app_nil_r in Hwindow. rewrite Hvalues, <- Hwindow.
      cbn. rewrite app_nil_r. reflexivity.
    + rewrite Nat.mod_small in Hcursor by lia.
      apply app_inj_2 in Hwindow as [Holder Hnewer]; [|lia].
      rewrite Hvalues, <- Holder, <- Hnewer. reflexivity.
  - intros Hfull. rewrite (window_when_full n samples Hfull) in Hwindow.
    rewrite Hvalues, Hwindow. apply Permutation_app_comm.
Qed.


End AvgProperties.

Section AvgExamples.
Import Avg.



End AvgExamples.

(** ** [UnitConversionDerivedSignal]: [forward] and [inverse] *)

Section UnitConversionProperties.
Import UnitConversion.
Context {T : Type} `{PyNumber T}.
Context (convert_unit : T -> unit_name -> unit_name -> outcome T).



End UnitConversionProperties.

Section UnitConversionOnFloats.
Import UnitConversion.
Local Open Scope string_scope.
Context (convert_unit : float -> unit_name -> unit_name -> outcome float).


End UnitConversionOnFloats.

Section UnitConversionExamples.
Import UnitConversion.
Local Open Scope string_scope.



End UnitConversionExamples.

(** ** More of [Kappa]: the coordinates and [stop] *)

Section KappaCoordinates.
Import NumPy Gon.
Local Open Scope string_scope.

(** X3: the three coordinate properties can never be read: each calls
    [k_to_e] with live values, which looks up [self.kap], and raises
    [AttributeError] on every device, leaving it as it was. *)
Theorem coordinates_always_raise (self : Kappa) :
  e_eta_coord self = (Raise (AttributeError "kap"), self)
  /\ e_chi_coord self = (Raise (AttributeError "kap"), self)
  /\ e_phi_coord self = (Raise (AttributeError "kap"), self).
Proof. done. Qed.

(** X4: [e_to_k] returns exactly when all three coordinates are given.  It
    then returns what the arithmetic gives for them; with any coordinate
    left as [None] it raises [AttributeError] for [kap].  The device is
    left as it was in both cases. *)
Theorem e_to_k_returns_iff_all_given (e_eta e_chi e_phi : pyval) (self : Kappa) :
  e_to_k e_eta e_chi e_phi self
  = (match e_eta, e_chi, e_phi with
     | PyNum x, PyNum y, PyNum z => Return (e_to_k_calc (kappa_ang self) x y z)
     | _, _, _ => Raise (AttributeError "kap")
     end, self).
Proof.
  destruct e_eta as [|x]; [reflexivity|].
  destruct e_chi as [|y].
  { unfold e_to_k. rewrite given_is_kept. reflexivity. }
  destruct e_phi as [|z].
  { unfold e_to_k. rewrite !given_is_kept. reflexivity. }
  apply e_to_k_given.
Qed.

(** X5: for every combination of arguments [k_to_e] raises and leaves the
    device as it was: [AttributeError] when kappa is left as [None],
    [UnboundLocalError] when it is given and eta and phi are numbers or
    [None]. *)
Theorem k_to_e_never_returns (eta kappa phi : pyval) (self : Kappa) :
  k_to_e eta kappa phi self
  = (Raise (match kappa with
            | PyNone => AttributeError "kap"
            | PyNum _ => UnboundLocalError "kap"
            end), self).
Proof.
  unfold k_to_e.
  destruct kappa as [|k].
  - destruct eta as [|x]; [reflexivity|].
    rewrite given_is_kept. reflexivity.
  - rewrite (given_is_kept k).
    destruct eta as [|x], phi as [|z]; rewrite ?given_is_kept; reflexivity.
Qed.

(** X6: [stop] always returns, and halts eta, kappa and phi, in this order,
    whatever was issued before; it reads no position and asks nothing. *)
Theorem stop_halts_all_three (self : Kappa) :
  fst (stop self) = Return tt
  /\ issued (snd (stop self)) = (issued self ++ [Stop Eta; Stop Kap; Stop Phi])%list
  /\ stdin (snd (stop self)) = stdin self.
Proof.
  assert (Hstop : stop self
                  = (Return tt,
                     issue (Stop Phi) (issue (Stop Kap) (issue (Stop Eta) self))))
    by reflexivity.
  rewrite Hstop. cbn. rewrite <- !app_assoc. done.
Qed.

End KappaCoordinates.

(** ** More of [AggregateSignal]: [get], failures and other events *)

Section AggregateMore.
Import Aggregate.
Context {V : Type} (py_ne : V -> V -> bool).
Context (_calc_readback : gmap signal V -> outcome V).

#[local] Abbreviation AggregateSignal := (AggregateSignal (V:=V)).
#[local] Abbreviation M := (state_exn AggregateSignal).

Lemma pulled_cons (src : signal -> outcome V) (s : signal)
    (sigs : list signal) (cache : gmap signal V) :
  pulled src (s :: sigs) cache
  = pulled src sigs (match src s with Return v => <[s:=v]> cache | Raise _ => cache end).
Proof. reflexivity. Qed.

(** The loop of [get] while every sub signal answers. *)
Lemma get_loop_returns (sigs : list signal) (self : AggregateSignal) :
  (forall s, s ∈ sigs -> exists v, source self s = Return v) ->
  for_ sigs (fun s => v ← signal_get s; modify (set_cache s v)) self
  = (Return tt,
     mkAggregate (_update_only_on_change self)
       (pulled (source self) sigs (_cache self))
       (_has_subscribed self) (_sub_signals self) (_readback self)
       (_callbacks self) (source self) (events self ++ map Read sigs)).
Proof.
  revert self. induction sigs as [|s sigs IH]; intros self Hsrc.
  - cbn. rewrite app_nil_r. destruct self; reflexivity.
  - destruct (Hsrc s) as [v Hv]; [left|].
    cbn [for_]. unfold mbind at 1, state_exn_bind at 1.
    assert (Hbody : (v ← signal_get s; modify (set_cache s v)) self
                    = (Return tt, set_cache s v (emit [Read s] self))).
    { unfold signal_get, mbind, state_exn_bind, modify, attr, lift. cbn.
      rewrite Hv. reflexivity. }
    rewrite Hbody, IH.
    + rewrite pulled_cons, Hv. cbn -[pulled]. rewrite <- app_assoc. reflexivity.
    + intros s' Hs'. cbn. apply Hsrc. right. exact Hs'.
Qed.

(** What the pulled cache holds. *)
Lemma pulled_lookup_other (src : signal -> outcome V) (sigs : list signal)
    (cache : gmap signal V) (s : signal) :
  s ∉ sigs -> pulled src sigs cache !! s = cache !! s.
Proof.
  revert cache. induction sigs as [|s' sigs IH]; intros cache Hs; [reflexivity|].
  apply not_elem_of_cons in Hs as [Hne Hs]. rewrite pulled_cons.
  rewrite (IH _ Hs). destruct (src s'); [|reflexivity].
  apply lookup_insert_ne. congruence.
Qed.

Lemma pulled_lookup (src : signal -> outcome V) (sigs : list signal)
    (cache : gmap signal V) (s : signal) (v : V) :
  s ∈ sigs -> src s = Return v -> pulled src sigs cache !! s = Some v.
Proof.
  revert cache. induction sigs as [|s' sigs IH]; intros cache Hs Hv.
  - apply elem_of_nil in Hs. done.
  - rewrite pulled_cons. destruct (decide (s ∈ sigs)) as [Hin|Hnotin].
    + apply IH; assumption.
    + apply elem_of_cons in Hs as [->|Hin]; [|done].
      rewrite pulled_lookup_other by exact Hnotin.
      rewrite Hv. apply lookup_insert_eq.
Qed.
Lemma get_returns (new : V) (self : AggregateSignal) :
  (forall s, s ∈ _sub_signals self -> exists v, source self s = Return v) ->
  _calc_readback (pulled (source self) (_sub_signals self) (_cache self))
  = Return new ->
  get _calc_readback self
  = (Return new,
     mkAggregate (_update_only_on_change self)
       (pulled (source self) (_sub_signals self) (_cache self))
       (_has_subscribed self) (_sub_signals self) new
       (_callbacks self) (source self)
       (events self ++ map Read (_sub_signals self))).
Proof.
  intros Hsrc Hcalc.
  unfold get, mbind, state_exn_bind. cbn [attr].
  pose proof (get_loop_returns _ _ Hsrc) as Hloop.
  unfold mbind, state_exn_bind in Hloop. rewrite Hloop.
  unfold _update_state, mbind, state_exn_bind, attr, lift, modify.
  cbn -[pulled]. rewrite Hcalc. reflexivity.
Qed.

(** X7: when every sub signal answers and the calculation returns on the
    pulled cache, [get] returns the new readback; the cache then holds the
    answer of each sub signal (slots of other signals stay), the readback
    is the value returned, each sub signal was read once, in order, and no
    observer was called. *)
Theorem get_pulls_every_sub_signal (new : V) (self : AggregateSignal) :
  (forall s, s ∈ _sub_signals self -> exists v, source self s = Return v) ->
  _calc_readback (pulled (source self) (_sub_signals self) (_cache self))
  = Return new ->
  let result := get _calc_readback self in
  fst result = Return new
  /\ (forall s v, s ∈ _sub_signals self -> source self s = Return v ->
        _cache (snd result) !! s = Some v)
  /\ (forall s, s ∉ _sub_signals self ->
        _cache (snd result) !! s = _cache self !! s)
  /\ _readback (snd result) = new
  /\ events (snd result) = events self ++ map Read (_sub_signals self).
Proof.
  intros Hsrc Hcalc result. subst result.
  rewrite (get_returns new self Hsrc Hcalc). cbn -[pulled].
  split; [reflexivity|]. split; [|split; [|done]].
  - intros s v. apply pulled_lookup.
  - intros s. apply pulled_lookup_other.
Qed.

(** X8: whenever the handler returns, the readback is what the calculation
    gives on the cache, whatever the signal was before and whether or not
    an observer was called. *)
Theorem run_sub_value_leaves_consistent (s : signal) (value : V)
    (self : AggregateSignal) :
  fst (_run_sub_value py_ne _calc_readback s value self) = Return tt ->
  consistent _calc_readback (snd (_run_sub_value py_ne _calc_readback s value self)).
Proof.
  unfold consistent.
  destruct (_calc_readback (<[s:=value]> (_cache self))) as [new|e] eqn:Hcalc.
  - unfold _run_sub_value, mbind, state_exn_bind. cbn [attr].
    rewrite (insert_value_returns _ _ _ _ _ Hcalc).
    cbn [set_readback set_cache _update_only_on_change].
    destruct (py_ne new (_readback self) || negb (_update_only_on_change self));
      intros _; exact Hcalc.
  - unfold _run_sub_value, mbind, state_exn_bind. cbn [attr].
    rewrite (insert_value_raises _ _ _ _ _ Hcalc). discriminate.
Qed.

(** X9: when the calculation raises on the new cache, the handler raises
    the same error; the slot of the sub signal holds the new value all the
    same, the readback is the one before, and no observer is called. *)
Theorem run_sub_value_raises_keeps_slot (s : signal) (value : V) (e : exn)
    (self : AggregateSignal) :
  _calc_readback (<[s:=value]> (_cache self)) = Raise e ->
  let result := _run_sub_value py_ne _calc_readback s value self in
  fst result = Raise e
  /\ _cache (snd result) !! s = Some value
  /\ _readback (snd result) = _readback self
  /\ events (snd result) = events self.
Proof.
  intros Hcalc result. subst result.
  unfold _run_sub_value, mbind, state_exn_bind. cbn [attr].
  rewrite (insert_value_raises _ _ _ _ _ Hcalc). cbn.
  split; [reflexivity|]. split; [apply lookup_insert_eq|done].
Qed.

(** X10: a subclass that clears [_update_only_on_change] hears of every
    notification: every callback registered for the value event is called
    with the new and the old readback, also when the two are equal. *)
Theorem run_sub_value_always_notifies (s : signal) (value new : V)
    (self : AggregateSignal) :
  _update_only_on_change self = false ->
  _calc_readback (<[s:=value]> (_cache self)) = Return new ->
  events (snd (_run_sub_value py_ne _calc_readback s value self))
  = events self
    ++ map (fun c => Notify (snd c) new (_readback self))
           (filter (fun c => fst c = SUB_VALUE) (_callbacks self)).
Proof.
  intros Hmode Hcalc.
  unfold _run_sub_value, mbind, state_exn_bind. cbn [attr].
  rewrite (insert_value_returns _ _ _ _ _ Hcalc).
  cbn [set_readback set_cache _update_only_on_change].
  rewrite Hmode, orb_true_r. reflexivity.
Qed.

(** X11: a subscription to another event than the value event registers
    the callback and answers its number, the count of callbacks before; it
    attaches nothing, reads nothing and leaves cache and readback alone. *)
Theorem subscribe_other_event (cb : callback) (event_type : string) (run : bool)
    (self : AggregateSignal) :
  event_type <> SUB_VALUE ->
  subscribe _calc_readback cb (Some event_type) run self
  = (Return (length (_callbacks self)), add_callback (event_type, cb) self).
Proof.
  intros Hother. unfold subscribe, super_subscribe, mbind, state_exn_bind.
  cbn [attr modify]. cbn.
  rewrite bool_decide_eq_false_2; [reflexivity|].
  intros [Hnone|Hvalue]; [discriminate|]. congruence.
Qed.

(** X12: every subscription to the value event of a signal whose sub
    signals answer and whose calculation returns, the first one or a later
    one, attaches the handler to each sub signal, then reads each of them,
    and answers the number of the callback. *)
Theorem subscribe_value_attaches_and_reads (cb : callback)
    (event_type : option string) (run : bool) (new : V) (self : AggregateSignal) :
  event_type = None \/ event_type = Some SUB_VALUE ->
  _has_subscribed self = false ->
  (forall s, s ∈ _sub_signals self -> exists v, source self s = Return v) ->
  _calc_readback (pulled (source self) (_sub_signals self) (_cache self))
  = Return new ->
  let result := subscribe _calc_readback cb event_type run self in
  fst result = Return (length (_callbacks self))
  /\ events (snd result)
     = events self ++ map Attach (_sub_signals self)
                   ++ map Read (_sub_signals self)
  /\ _readback (snd result) = new
  /\ _has_subscribed (snd result) = false.
Proof.
  intros Hevent Hflag Hsrc Hcalc result. subst result.
  assert (Hattach : forall (sigs : list signal) (st : AggregateSignal),
             for_ sigs signal_subscribe st = (Return tt, emit (map Attach sigs) st)).
  { induction sigs as [|s sigs IH]; intros st.
    - cbn. unfold emit. rewrite app_nil_r. destruct st; reflexivity.
    - cbn [for_]. unfold mbind, state_exn_bind, signal_subscribe at 1, modify.
      rewrite IH. unfold emit. cbn. rewrite <- app_assoc. reflexivity. }
  unfold subscribe, super_subscribe, mbind, state_exn_bind, mret, state_exn_ret.
  cbn [attr modify]. cbn [add_callback _has_subscribed _sub_signals].
  rewrite bool_decide_eq_true_2 by exact Hevent. rewrite Hflag. cbn [negb andb].
  unfold mbind, state_exn_bind in Hattach. rewrite Hattach.
  change (_sub_signals (add_callback (default SUB_VALUE event_type, cb) self))
    with (_sub_signals self).
  rewrite (get_returns new
             (emit (map Attach (_sub_signals self))
                (add_callback (default SUB_VALUE event_type, cb) self)));
    [|exact Hsrc|exact Hcalc].
  cbn -[pulled]. rewrite <- app_assoc. done.
Qed.

(** X13: when a sub signal fails to answer and the ones before it in the
    list answer, [get] raises the error of that sub signal; the sub signals
    after it are not read, the ones before it are in the cache, and the
    readback is the one before. *)
Theorem get_raises_at_first_failure (before after : list signal) (s : signal)
    (e : exn) (self : AggregateSignal) :
  _sub_signals self = before ++ s :: after ->
  (forall s', s' ∈ before -> exists v, source self s' = Return v) ->
  source self s = Raise e ->
  let result := get _calc_readback self in
  fst result = Raise e
  /\ events (snd result) = events self ++ map Read (before ++ [s])
  /\ _cache (snd result) = pulled (source self) before (_cache self)
  /\ _readback (snd result) = _readback self.
Proof.
  intros Hsigs Hbefore Hfail result. subst result.
  assert (Hloop : forall (sigs : list signal) (st : AggregateSignal),
             source st = source self ->
             (forall s', s' ∈ sigs -> exists v, source self s' = Return v) ->
             for_ (sigs ++ s :: after)
               (fun s => v ← signal_get s; modify (set_cache s v)) st
             = (Raise e,
                mkAggregate (_update_only_on_change st)
                  (pulled (source self) sigs (_cache st))
                  (_has_subscribed st) (_sub_signals st) (_readback st)
                  (_callbacks st) (source st)
                  (events st ++ map Read (sigs ++ [s])))).
  { induction sigs as [|s0 sigs IH]; intros st Hst Hsrc.
    - cbn [app for_]. unfold signal_get, modify, attr, lift, mbind, state_exn_bind.
      assert (Hs : source st s = Raise e) by (rewrite Hst; exact Hfail).
      cbn. rewrite Hs. destruct st; reflexivity.
    - destruct (Hsrc s0) as [v Hv]; [left|].
      cbn [app for_]. unfold mbind at 1, state_exn_bind at 1.
      assert (Hbody : (v ← signal_get s0; modify (set_cache s0 v)) st
                      = (Return tt, set_cache s0 v (emit [Read s0] st))).
      { assert (Hs0 : source st s0 = Return v) by (rewrite Hst; exact Hv).
        unfold signal_get, mbind, state_exn_bind, modify, attr, lift. cbn.
        rewrite Hs0. reflexivity. }
      rewrite Hbody, IH.
      + rewrite pulled_cons, Hv. cbn -[pulled]. rewrite <- app_assoc. reflexivity.
      + exact Hst.
      + intros s' Hs'. apply Hsrc. right. exact Hs'. }
  unfold get, mbind, state_exn_bind. cbn [attr]. rewrite Hsigs.
  unfold mbind, state_exn_bind in Hloop.
  rewrite (Hloop before self eq_refl Hbefore). cbn -[pulled]. done.
Qed.

End AggregateMore.

Section AggregateMoreExamples.
Import Aggregate.
Local Open Scope Z_scope.

Lemma get_pulls_every_sub_signal_example :
  let result := get sum_readback two_signals in
  fst result = Return 30
  /\ (forall s v, s ∈ _sub_signals two_signals -> source two_signals s = Return v ->
        _cache (snd result) !! s = Some v)
  /\ (forall s, s ∉ _sub_signals two_signals ->
        _cache (snd result) !! s = _cache two_signals !! s)
  /\ _readback (snd result) = 30
  /\ events (snd result) = events two_signals ++ map Read (_sub_signals two_signals).
Proof.
  apply (get_pulls_every_sub_signal sum_readback 30 two_signals).
  - intros s _. eexists. reflexivity.
  - reflexivity.
Defined.

Lemma run_sub_value_leaves_consistent_example :
  consistent sum_readback (snd (_run_sub_value Z_ne sum_readback 1%nat 5 two_signals)).
Proof.
  apply (run_sub_value_leaves_consistent Z_ne sum_readback 1%nat 5 two_signals).
  reflexivity.
Defined.

Lemma run_sub_value_raises_keeps_slot_example :
  let result := _run_sub_value Z_ne base_calc_readback 1%nat 5 two_signals in
  fst result = Raise NotImplementedError
  /\ _cache (snd result) !! 1%nat = Some 5
  /\ _readback (snd result) = _readback two_signals
  /\ events (snd result) = events two_signals.
Proof.
  apply (run_sub_value_raises_keeps_slot Z_ne base_calc_readback 1%nat 5
           NotImplementedError two_signals).
  reflexivity.
Defined.

Lemma run_sub_value_always_notifies_example :
  let self :=
    add_callback ("value"%string, 7%nat)
      (with_sub_signals [1%nat] (init false 0 (fun s => Return 0))) in
  events (snd (_run_sub_value Z_ne sum_readback 1%nat 0 self))
  = [Notify 7%nat 0 0].
Proof.
  intros self.
  rewrite (run_sub_value_always_notifies Z_ne sum_readback 1%nat 0 0 self
             eq_refl eq_refl).
  reflexivity.
Defined.

Lemma subscribe_other_event_example :
  subscribe sum_readback 7%nat (Some "meta"%string) true two_signals
  = (Return 0%nat, add_callback ("meta"%string, 7%nat) two_signals).
Proof.
  apply (subscribe_other_event sum_readback 7%nat "meta" true two_signals).
  discriminate.
Defined.

Lemma subscribe_value_attaches_and_reads_example :
  let result := subscribe sum_readback 7%nat None true two_signals in
  fst result = Return (length (_callbacks two_signals))
  /\ events (snd result)
     = events two_signals ++ map Attach (_sub_signals two_signals)
                          ++ map Read (_sub_signals two_signals)
  /\ _readback (snd result) = 30
  /\ _has_subscribed (snd result) = false.
Proof.
  apply (subscribe_value_attaches_and_reads sum_readback 7%nat None true 30
           two_signals).
  - left. reflexivity.
  - reflexivity.
  - intros s _. eexists. reflexivity.
  - reflexivity.
Defined.

Lemma get_raises_at_first_failure_example :
  let result := get sum_readback flaky_signals in
  fst result = Raise ValueError
  /\ events (snd result) = events flaky_signals ++ map Read ([1%nat] ++ [2%nat])
  /\ _cache (snd result) = pulled (source flaky_signals) [1%nat] (_cache flaky_signals)
  /\ _readback (snd result) = _readback flaky_signals.
Proof.
  apply (get_raises_at_first_failure sum_readback [1%nat] [3%nat] 2%nat
           ValueError flaky_signals).
  - reflexivity.
  - intros s Hs. apply list_elem_of_singleton in Hs as ->. eexists. reflexivity.
  - reflexivity.
Defined.

End AggregateMoreExamples.

(** ** More of [AvgSignal]: the setter of [averages], the cursor, and a
    buffer of size zero *)

Section AvgMore.
Import Avg.
Context (np_nanmean : list float -> float).

(** X14: setting [averages] throws the history away.  Whatever the signal
    held, after its buffer size is set to [n >= 1] (which puts nothing) and
    at least one sample arrives, every update returns, the value put last
    is numpy's [nanmean] of the buffer, and the buffer holds only what
    arrived since: the samples followed by NaN while they are no more than
    [n], exactly the last [n] of them, each once, from then on. *)
Theorem set_averages_discards_history (n : nat) (samples : list float)
    (self : AvgSignal) :
  1 <= n -> samples <> [] ->
  let result := feed np_nanmean samples (set_averages n self) in
  _readback (set_averages n self) = _readback self
  /\ fst result = Return tt
  /\ _readback (snd result) = Some (np_nanmean (values (snd result)))
  /\ (length samples <= n ->
      values (snd result) = samples ++ replicate (n - length samples) nan)
  /\ (n <= length samples -> values (snd result) ≡ₚ last_n n samples).
Proof.
  intros Hn Hsamples result. subst result.
  destruct (feed_after_set_averages np_nanmean n samples self Hn Hsamples)
    as (Hrun & Hput & _ & Hshort & Hfull).
  done.
Qed.

(** X15: for a buffer size [n >= 1], after any number of updates the cursor
    is the number of updates modulo [n], so always inside the buffer; the
    buffer still has [n] slots, [averages] is still [n], and no update
    raised. *)
Theorem cursor_counts_updates (n : nat) (samples : list float)
    (self : AvgSignal) :
  1 <= n ->
  let result := feed np_nanmean samples (set_averages n self) in
  fst result = Return tt
  /\ index (snd result) = length samples mod n
  /\ index (snd result) < n
  /\ length (values (snd result)) = n
  /\ _avg (snd result) = n.
Proof.
  intros Hn result. subst result.
  destruct (feed_cursor np_nanmean n samples 0 (set_averages n self) Hn)
    as (Hr & Hidx & Hlen & Havg).
  - cbn. symmetry. apply Nat.Div0.mod_0_l.
  - cbn. apply length_replicate.
  - reflexivity.
  - rewrite Hidx. cbn [Nat.add]. repeat split; try done.
    apply Nat.mod_upper_bound. lia.
Qed.

(** X16: with a buffer of size zero every update raises [IndexError]
    before anything is written or put: the signal stays as the setter left
    it, whatever the sample. *)
Theorem update_avg_empty_buffer_raises (x : float) (samples : list float)
    (self : AvgSignal) :
  _update_avg np_nanmean x (set_averages 0 self)
  = (Raise IndexError, set_averages 0 self)
  /\ feed np_nanmean (x :: samples) (set_averages 0 self)
     = (Raise IndexError, set_averages 0 self).
Proof. split; reflexivity. Qed.

End AvgMore.

Section AvgMoreExamples.
Import Avg.

Lemma set_averages_discards_history_example :
  let self := snd (feed nanmean_in_order [100; 200]%float (init 5)) in
  let samples := [1; 2; 4]%float in
  let result := feed nanmean_in_order samples (set_averages 2 self) in
  _readback (set_averages 2 self) = _readback self
  /\ fst result = Return tt
  /\ _readback (snd result) = Some (nanmean_in_order (values (snd result)))
  /\ (length samples <= 2 ->
      values (snd result) = samples ++ replicate (2 - length samples) nan)
  /\ (2 <= length samples -> values (snd result) ≡ₚ last_n 2 samples).
Proof.
  intros self.
  apply (set_averages_discards_history nanmean_in_order 2 [1; 2; 4]%float self);
    [lia | discriminate].
Defined.

Lemma cursor_counts_updates_example :
  let samples := [1; 2; 4; 8; 16]%float in
  let result := feed nanmean_in_order samples (set_averages 3 (init 7)) in
  fst result = Return tt
  /\ index (snd result) = length samples mod 3
  /\ index (snd result) < 3
  /\ length (values (snd result)) = 3
  /\ _avg (snd result) = 3.
Proof.
  apply (cursor_counts_updates nanmean_in_order 3 [1; 2; 4; 8; 16]%float (init 7)).
  lia.
Defined.

End AvgMoreExamples.

(** ** More of [UnitConversionDerivedSignal]: a missing offset, the setter,
    the units of the source, and [describe] *)

Section UnitConversionMore.
Import UnitConversion.
Context {T : Type} `{PyNumber T}.
Context (convert_unit : T -> unit_name -> unit_name -> outcome T).

#[local] Abbreviation signal_t := (UnitConversionDerivedSignal (T:=T)).

(** X17: without an offset neither direction converts anything: for every
    converter, every units and every value, [forward] and [inverse] raise
    [ValueError]. *)
Theorem no_offset_is_a_value_error (derived original : unit_name) (x : T) :
  forward convert_unit (mkUnitConversion derived original None) x
  = Raise ValueError
  /\ inverse convert_unit (mkUnitConversion derived original None) x
     = Raise ValueError.
Proof. split; reflexivity. Qed.

(** X18: the setter of [user_offset] stores the offset and changes nothing
    else of the signal; it hands the value of the source on for
    redelivery exactly when the source is connected and its value is not
    [None], and hands on nothing otherwise. *)
Theorem set_user_offset_redelivers_when_connected (offset : option T)
    (self : derived (T:=T)) :
  let self' := set_user_offset offset self in
  user_offset (signal self') = offset
  /\ derived_units (signal self') = derived_units (signal self)
  /\ original_units (signal self') = original_units (signal self)
  /\ handed_on self'
     = handed_on self
       ++ (if source_connected self then option_list (source_value self) else []).
Proof.
  intros self'. subst self'. unfold set_user_offset, _recalculate_position.
  cbn. destruct (source_connected self); cbn.
  - destruct (source_value self); cbn; rewrite ?app_nil_r; done.
  - rewrite app_nil_r. done.
Qed.

(** A run of metadata callbacks, each with its [connected] flag and its
    [units] keyword. *)
Lemma metadata_keeps_known_units (connected : bool) (units : option unit_name)
    (u : string) (self : signal_t) :
  original_units self = Some u ->
  _derived_metadata_callback connected units self = self.
Proof.
  intros Hknown. unfold _derived_metadata_callback.
  destruct units; [|reflexivity]. destruct connected; [|reflexivity].
  rewrite Hknown. reflexivity.
Qed.

(** X19: once [original_units] is known, no metadata from the source
    changes the signal: after any run of metadata callbacks, connected or
    not, with or without units, the signal is what it was. *)
Theorem known_units_are_locked (derived : unit_name) (u : string)
    (offset : option T) (callbacks : list (bool * option unit_name)) :
  let self := mkUnitConversion derived (Some u) offset in
  foldl (fun s c => _derived_metadata_callback (fst c) (snd c) s) self callbacks
  = self.
Proof.
  intros self. induction callbacks as [|c callbacks IH]; [reflexivity|].
  cbn [foldl]. rewrite (metadata_keeps_known_units _ _ u) by reflexivity.
  exact IH.
Qed.

(** X20: while [original_units] is not known, metadata of a connected
    source that carries units sets it to those units; metadata of a source
    that is not connected, or without units, sets nothing; the derived
    units and the offset stay in every case. *)
Theorem unknown_units_are_adopted (derived : unit_name) (offset : option T)
    (connected : bool) (units : option unit_name) :
  _derived_metadata_callback connected units
    (mkUnitConversion derived None offset)
  = mkUnitConversion derived
      (if connected then default None units else None) offset.
Proof. destruct units as [u|], connected; reflexivity. Qed.

(** X21: [describe] reports the derived units.  With no control limit in
    the description it returns, also when the offset is [None]; with a
    limit in it and no offset it raises [ValueError]. *)
Theorem describe_without_limits_or_offset (self : signal_t)
    (units : option unit_name) (limit : T) (other : option T) :
  describe convert_unit self (mkDescription units None None)
  = Return (mkDescription (Some (derived_units self)) None None)
  /\ describe convert_unit
       (mkUnitConversion (derived_units self) (original_units self) None)
       (mkDescription units (Some limit) other)
     = Raise ValueError
  /\ describe convert_unit
       (mkUnitConversion (derived_units self) (original_units self) None)
       (mkDescription units other (Some limit))
     = Raise ValueError.
Proof.
  split; [reflexivity|]. split; [reflexivity|].
  destruct other; reflexivity.
Qed.

(** X22: with both control limits in the description and [inverse]
    returning on each, [describe] replaces each limit by its [inverse] and
    the units by the derived units. *)
Theorem describe_converts_limits (self : signal_t) (units : option unit_name)
    (lower upper lower' upper' : T) :
  inverse convert_unit self lower = Return lower' ->
  inverse convert_unit self upper = Return upper' ->
  describe convert_unit self (mkDescription units (Some lower) (Some upper))
  = Return (mkDescription (Some (derived_units self)) (Some lower') (Some upper')).
Proof.
  intros Hlower Hupper. unfold describe. cbn.
  rewrite Hlower. cbn. rewrite Hupper. reflexivity.
Qed.

End UnitConversionMore.

Section UnitConversionMoreExamples.
Import UnitConversion.
Local Open Scope string_scope.

Lemma describe_converts_limits_example :
  let self := mkUnitConversion (Some "mm") (Some "m") (Some (Q2Qc (1 # 2))) in
  describe convert_metric self
    (mkDescription (Some (Some "m")) (Some (Q2Qc 0)) (Some (Q2Qc 2)))
  = Return (mkDescription (Some (Some "mm")) (Some (Q2Qc (1 # 2)))
              (Some (Q2Qc (4001 # 2)))).
Proof.
  intros self.
  apply (describe_converts_limits convert_metric self).
  - cbn. f_equal; apply Qc_is_canon; reflexivity.
  - cbn. f_equal; apply Qc_is_canon; reflexivity.
Defined.

End UnitConversionMoreExamples.
